(** * The Button component of the React UI library template

    A shallow embedding of [src/components/Button/Button.tsx]: the two style
    tables, the destructuring of the props object, the template literal that
    builds the class string, and the JSX element the component returns.

    JavaScript strings are sequences of UTF-16 code units, objects used as
    maps are finite maps from property names to values, and a React element
    is its type together with its props object. *)

From Stdlib Require Import NArith String Ascii List Lia.
From stdpp Require Import gmap list fin_maps.

Local Set Warnings "-register-all".
Local Open Scope N_scope.

(** ** JavaScript strings *)

Module JS.

(** A string is the list of its UTF-16 code units. *)
Definition jsstring : Type := list N.

(** An ASCII literal of the source as a JavaScript string. *)
Definition js (s : string) : jsstring := map N_of_ascii (list_ascii_of_string s).

(** [WhiteSpace] and [LineTerminator] of ECMAScript: the code units that
    [String.prototype.trim] strips.  TAB, LF, VT, FF, CR, SP, NBSP, the
    Unicode space separators, LS, PS and the byte order mark. *)
Definition isWhiteSpace (c : N) : bool :=
  ((9 <=? c) && (c <=? 13))
  || (c =? 32) || (c =? 160) || (c =? 5760)
  || ((8192 <=? c) && (c <=? 8202))
  || (c =? 8232) || (c =? 8233) || (c =? 8239) || (c =? 8287)
  || (c =? 12288) || (c =? 65279).

(** [String.prototype.trimStart]. *)
Fixpoint trimStart (s : jsstring) : jsstring :=
  match s with
  | [] => []
  | c :: s' => if isWhiteSpace c then trimStart s' else s
  end.

(** [String.prototype.trimEnd]: a code unit is kept when it is not white
    space or when something is kept after it. *)
Fixpoint trimEnd (s : jsstring) : jsstring :=
  match s with
  | [] => []
  | c :: s' =>
      match trimEnd s' with
      | [] => if isWhiteSpace c then [] else [c]
      | r => c :: r
      end
  end.

(** [String.prototype.trim]. *)
Definition trim (s : jsstring) : jsstring := trimEnd (trimStart s).

(** The pieces of a string between white space; an empty piece stands
    between two adjacent separators and at either end. *)
Fixpoint pieces (s : jsstring) : list jsstring :=
  match s with
  | [] => [[]]
  | c :: s' =>
      if isWhiteSpace c then [] :: pieces s'
      else match pieces s' with
           | [] => [[c]]
           | w :: ws => (c :: w) :: ws
           end
  end.

Definition nonempty (w : jsstring) : bool :=
  match w with [] => false | _ :: _ => true end.

(** The tokens of a class string: its maximal runs of code units that are
    not white space, in order. *)
Definition tokens (s : jsstring) : list jsstring := List.filter nonempty (pieces s).

(** What a template literal substitutes for a property read that may have
    found nothing: the text of [undefined]. *)
Definition interpolate (x : option jsstring) : jsstring :=
  match x with
  | Some s => s
  | None => js "undefined"
  end.

End JS.

Export JS.

(** ** Values and objects *)

(** The JavaScript values the component handles: a React element is its type
    and its props object, a function is known by its identity. *)
Inductive value : Type :=
  | VUndefined
  | VNull
  | VBool (b : bool)
  | VString (s : jsstring)
  | VFunction (f : N)
  | VArray (xs : list value)
  | VElement (type : jsstring) (props : gmap jsstring value).

(** An object used as a map from property names to values. *)
Abbreviation Props := (gmap jsstring value).

(** ** The component *)

Module Button.

(** [variant?: 'primary' | 'secondary' | 'destructive' | 'outline' | 'ghost'] *)
Inductive VariantKind : Type :=
  | primary | secondary | destructive | outline | ghost.

(** [size?: 'small' | 'medium' | 'large'] *)
Inductive SizeKind : Type :=
  | small | medium | large.

(** The string literal each member of the union is. *)
Definition variantKey (v : VariantKind) : jsstring :=
  match v with
  | primary => js "primary"
  | secondary => js "secondary"
  | destructive => js "destructive"
  | outline => js "outline"
  | ghost => js "ghost"
  end.

Definition sizeKey (s : SizeKind) : jsstring :=
  match s with
  | small => js "small"
  | medium => js "medium"
  | large => js "large"
  end.

Definition allVariants : list VariantKind :=
  [primary; secondary; destructive; outline; ghost].

Definition allSizes : list SizeKind := [small; medium; large].

(** [const buttonVariants = { ... }], entry by entry as written. *)
Definition buttonVariantsEntries : list (jsstring * jsstring) :=
  [ (js "primary", js "bg-blue-600 text-white hover:bg-blue-700 focus:ring-blue-500");
    (js "secondary", js "bg-gray-600 text-white hover:bg-gray-700 focus:ring-gray-500");
    (js "destructive", js "bg-red-600 text-white hover:bg-red-700 focus:ring-red-500");
    (js "outline", js "border-2 border-gray-300 text-gray-700 hover:bg-gray-50 focus:ring-gray-500");
    (js "ghost", js "text-gray-700 hover:bg-gray-100 focus:ring-gray-500") ].

Definition buttonVariants : gmap jsstring jsstring := list_to_map buttonVariantsEntries.

(** [const buttonSizes = { ... }], entry by entry as written. *)
Definition buttonSizesEntries : list (jsstring * jsstring) :=
  [ (js "small", js "px-3 py-1.5 text-sm");
    (js "medium", js "px-4 py-2 text-base");
    (js "large", js "px-6 py-3 text-lg") ].

Definition buttonSizes : gmap jsstring jsstring := list_to_map buttonSizesEntries.

(** [const baseClasses = '...'] *)
Definition baseClasses : jsstring :=
  js "inline-flex items-center justify-center font-medium rounded-md transition-colors focus:outline-none focus:ring-2 focus:ring-offset-2 disabled:opacity-50 disabled:pointer-events-none".

(** [`${baseClasses} ${variantClasses} ${sizeClasses} ${className}`.trim()] *)
Definition combine (base variantClasses sizeClasses className : jsstring) : jsstring :=
  trim (base ++ js " " ++ variantClasses ++ js " " ++ sizeClasses ++ js " " ++ className).

(** Truthiness, and the two short-circuit operators: [a || b] is [a] when
    [a] is truthy and [b] otherwise, [a && b] is [b] when [a] is truthy and
    [a] otherwise. *)
Definition truthy (v : value) : bool :=
  match v with
  | VUndefined | VNull => false
  | VBool b => b
  | VString s => nonempty s
  | VFunction _ | VArray _ | VElement _ _ => true
  end.

Definition jsOr (a b : value) : value := if truthy a then a else b.
Definition jsAnd (a b : value) : value := if truthy a then b else a.

(** The bindings of the parameter pattern
    [{ variant = 'primary', size = 'medium', isLoading = false, disabled,
       className = '', children, ...props }]. *)
Record Params : Type := {
  variant : VariantKind;
  size : SizeKind;
  isLoading : bool;
  disabled : value;
  className : jsstring;
  children : value;
  props : Props
}.

(** The names the pattern binds; [...props] collects every other own
    property. *)
Definition recognized : list jsstring :=
  [js "variant"; js "size"; js "isLoading"; js "disabled"; js "className"; js "children"].

Definition rest (o : Props) : Props := foldr delete o recognized.

Definition variantOfKey (s : jsstring) : option VariantKind :=
  List.find (fun v => bool_decide (variantKey v = s)) allVariants.

Definition sizeOfKey (s : jsstring) : option SizeKind :=
  List.find (fun z => bool_decide (sizeKey z = s)) allSizes.

(** Reading one property of the declared type; a missing property and
    [undefined] take the default of the pattern, a value outside the
    declared type has no reading. *)
Definition readVariant (x : option value) : option VariantKind :=
  match x with
  | None | Some VUndefined => Some primary
  | Some (VString s) => variantOfKey s
  | Some _ => None
  end.

Definition readSize (x : option value) : option SizeKind :=
  match x with
  | None | Some VUndefined => Some medium
  | Some (VString s) => sizeOfKey s
  | Some _ => None
  end.

Definition readIsLoading (x : option value) : option bool :=
  match x with
  | None | Some VUndefined => Some false
  | Some (VBool b) => Some b
  | Some _ => None
  end.

Definition readDisabled (x : option value) : option value :=
  match x with
  | None | Some VUndefined => Some VUndefined
  | Some (VBool b) => Some (VBool b)
  | Some _ => None
  end.

Definition readClassName (x : option value) : option jsstring :=
  match x with
  | None | Some VUndefined => Some []
  | Some (VString s) => Some s
  | Some _ => None
  end.

(** Destructuring a props object of type [ButtonProps]. *)
Definition destructure (o : Props) : option Params :=
  v ← readVariant (o !! js "variant");
  z ← readSize (o !! js "size");
  l ← readIsLoading (o !! js "isLoading");
  d ← readDisabled (o !! js "disabled");
  c ← readClassName (o !! js "className");
  Some {| variant := v; size := z; isLoading := l; disabled := d; className := c;
          children := default VUndefined (o !! js "children");
          props := rest o |}.

(** The object is of type [ButtonProps] as far as the component reads it:
    [children] and the inherited button attributes are passed along
    unread, so nothing is asked of them. *)
Definition ButtonProps_ok (o : Props) : bool :=
  match o !! js "variant" with
  | None | Some VUndefined => true
  | Some (VString s) => bool_decide (s ∈ map variantKey allVariants)
  | Some _ => false
  end
  && match o !! js "size" with
     | None | Some VUndefined => true
     | Some (VString s) => bool_decide (s ∈ map sizeKey allSizes)
     | Some _ => false
     end
  && match o !! js "isLoading" with
     | None | Some VUndefined | Some (VBool _) => true
     | Some _ => false
     end
  && match o !! js "disabled" with
     | None | Some VUndefined | Some (VBool _) => true
     | Some _ => false
     end
  && match o !! js "className" with
     | None | Some VUndefined | Some (VString _) => true
     | Some _ => false
     end.

(** The [<svg>] of the loading spinner with its [<circle>] and [<path>]. *)
Definition spinner : value :=
  VElement (js "svg")
    (list_to_map
       [ (js "className", VString (js "w-4 h-4 mr-2 animate-spin"));
         (js "fill", VString (js "none"));
         (js "viewBox", VString (js "0 0 24 24"));
         (js "children",
          VArray
            [ VElement (js "circle")
                (list_to_map
                   [ (js "className", VString (js "opacity-25"));
                     (js "cx", VString (js "12"));
                     (js "cy", VString (js "12"));
                     (js "r", VString (js "10"));
                     (js "stroke", VString (js "currentColor"));
                     (js "strokeWidth", VString (js "4")) ]);
              VElement (js "path")
                (list_to_map
                   [ (js "className", VString (js "opacity-75"));
                     (js "fill", VString (js "currentColor"));
                     (js "d", VString (js "M4 12a8 8 0 018-8V0C5.373 0 0 5.373 0 12h4zm2 5.291A7.962 7.962 0 014 12H0c0 3.042 1.135 5.824 3 7.938l3-2.647z")) ]) ]) ]).

(** The class string of the element. *)
Definition combinedClasses (b : Params) : jsstring :=
  let variantClasses := buttonVariants !! variantKey (variant b) in
  let sizeClasses := buttonSizes !! sizeKey (size b) in
  combine baseClasses (interpolate variantClasses) (interpolate sizeClasses) (className b).

(** The function body: the element
    [<button className={combinedClasses} disabled={disabled || isLoading} {...props}>
       {isLoading && <svg/>}{children}</button>].
    Its props object lists [className] and [disabled] first, then the
    spread, then the two children; a later entry replaces an earlier one
    of the same name. *)
Definition render (b : Params) : value :=
  VElement (js "button")
    (<[js "children" := VArray [jsAnd (VBool (isLoading b)) spinner; children b]]>
       (props b ∪
          <[js "disabled" := jsOr (disabled b) (VBool (isLoading b))]>
            {[js "className" := VString (combinedClasses b)]})).

(** The component, on the props object React hands it.  React keeps [key]
    and [ref] to itself, the object holds what the caller wrote besides. *)
Definition Button (o : Props) : option value := render <$> destructure o.

(** The boolean a caller passed under a name; leaving the property out
    passes [undefined], which counts as false. *)
Definition flag (o : Props) (k : jsstring) : bool :=
  truthy (default VUndefined (o !! k)).

(** The props object of an element, and one property of it. *)
Definition propsOf (e : value) : Props :=
  match e with
  | VElement _ attrs => attrs
  | _ => ∅
  end.

Definition attr (e : value) (k : jsstring) : option value := propsOf e !! k.

End Button.

(** ** The host *)

Module Host.

(** Modelled from the spec: the host's delivery of one activation event to
    a rendered control, which is not code of the component.  A control whose
    [disabled] flag is set receives nothing; otherwise the function under
    [onClick], when there is one, is called once.  The calls made so far
    are kept in order. *)
Definition activate (node : value) (calls : list N) : list N :=
  if Button.truthy (default VUndefined (Button.attr node (js "disabled"))) then calls
  else match Button.attr node (js "onClick") with
       | Some (VFunction f) => calls ++ [f]
       | _ => calls
       end.

(** [n] activation events in a row, from no calls. *)
Definition dispatch (n : nat) (node : value) : list N := Nat.iter n (activate node) [].

(** How often [f] was called. *)
Definition timesCalled (f : N) (calls : list N) : nat :=
  length (List.filter (fun g => N.eqb g f) calls).

End Host.

(** ** Props objects of the test suite *)

Module Examples.

(** [<Button>Click me</Button>] *)
Definition plain : Props := {[js "children" := VString (js "Click me")]}.

(** [<Button className="extra-token">Custom</Button>] *)
Definition customClass : Props :=
  <[js "className" := VString (js "extra-token")]>
    {[js "children" := VString (js "Custom")]}.

(** [<Button isLoading>Loading</Button>] *)
Definition loading : Props :=
  <[js "isLoading" := VBool true]> {[js "children" := VString (js "Loading")]}.

(** [<Button disabled onClick={handleClick}>Disabled</Button>], the
    handler being function 7. *)
Definition disabledClick : Props :=
  <[js "disabled" := VBool true]>
    (<[js "onClick" := VFunction 7]> {[js "children" := VString (js "Disabled")]}).

(** [<Button onClick={handleClick}>Click me</Button>] *)
Definition click : Props :=
  <[js "onClick" := VFunction 7]> {[js "children" := VString (js "Click me")]}.

(** [<Button variant="destructive" size="large" data-testid="custom-button">Delete</Button>] *)
Definition destructiveLarge : Props :=
  <[js "variant" := VString (js "destructive")]>
    (<[js "size" := VString (js "large")]>
       (<[js "data-testid" := VString (js "custom-button")]>
          {[js "children" := VString (js "Delete")]})).

End Examples.

(** ** The class-name helper of [src/utils/index.ts] *)

Module Utils.

(** An argument of [cn]: [string | undefined | false | null]. *)
Inductive classValue : Type :=
  | ClassString (s : jsstring)
  | ClassUndefined
  | ClassFalse
  | ClassNull.

(** [Boolean] on such an argument: only a string that is not empty is
    truthy. *)
Definition Boolean (c : classValue) : bool :=
  match c with
  | ClassString s => nonempty s
  | ClassUndefined | ClassFalse | ClassNull => false
  end.

(** The text [Array.prototype.join] writes for an element: nothing for
    [undefined] and [null], the string conversion otherwise. *)
Definition elementText (c : classValue) : jsstring :=
  match c with
  | ClassString s => s
  | ClassUndefined | ClassNull => []
  | ClassFalse => js "false"
  end.

(** [Array.prototype.join]. *)
Fixpoint join (sep : jsstring) (l : list classValue) : jsstring :=
  match l with
  | [] => []
  | x :: l' =>
      match l' with
      | [] => elementText x
      | _ :: _ => elementText x ++ sep ++ join sep l'
      end
  end.

(** [classes.filter(Boolean).join(' ')] *)
Definition cn (classes : list classValue) : jsstring :=
  join (js " ") (List.filter Boolean classes).

(** The class tokens an argument stands for. *)
Definition classTokens (c : classValue) : list jsstring :=
  match c with
  | ClassString s => tokens s
  | ClassUndefined | ClassFalse | ClassNull => []
  end.

End Utils.

(** ** The two release configurations *)

(** [process.env.NPM_TOKEN] in a condition: set, and not the empty string. *)
Definition envSet (v : option jsstring) : bool :=
  match v with
  | Some s => nonempty s
  | None => false
  end.

(** [Array.prototype.splice] with a start and a delete count that are not
    negative: both are cut down to what the array holds. *)
Definition splice {A : Type} (start deleteCount : nat) (items l : list A) : list A :=
  take start l ++ items ++ drop (start + deleteCount) l.

(** The configuration without a changelog step. *)
Module Release.

Definition initial : list jsstring :=
  [ js "@semantic-release/commit-analyzer";
    js "@semantic-release/release-notes-generator";
    js "@semantic-release/github" ].

(** [if (process.env.NPM_TOKEN) { plugins.splice(2, 0, '@semantic-release/npm') }] *)
Definition plugins (NPM_TOKEN : option jsstring) : list jsstring :=
  if envSet NPM_TOKEN then splice 2 0 [js "@semantic-release/npm"] initial else initial.

(** [module.exports = { branches: ['main'], plugins: plugins }] *)
Definition exports (NPM_TOKEN : option jsstring) : list jsstring * list jsstring :=
  ([js "main"], plugins NPM_TOKEN).

End Release.

(** The configuration with a changelog step. *)
Module ReleaseChangelog.

Definition initial : list jsstring :=
  [ js "@semantic-release/commit-analyzer";
    js "@semantic-release/release-notes-generator";
    js "@semantic-release/changelog";
    js "@semantic-release/github" ].

(** [if (process.env.NPM_TOKEN) { plugins.splice(3, 0, '@semantic-release/npm') }] *)
Definition plugins (NPM_TOKEN : option jsstring) : list jsstring :=
  if envSet NPM_TOKEN then splice 3 0 [js "@semantic-release/npm"] initial else initial.

(** [module.exports = { branches: ['main'], plugins: plugins }] *)
Definition exports (NPM_TOKEN : option jsstring) : list jsstring * list jsstring :=
  ([js "main"], plugins NPM_TOKEN).

End ReleaseChangelog.

(** ** The [viteFinal] hook of [.storybook/main.ts] *)

Module Storybook.

(** [config.resolve]: its [alias], absent or an object seen through its own
    properties, and its other options. *)
Record ResolveOptions : Type := {
  alias : option Props;
  resolveOther : Props
}.

(** The configuration the hook is handed: [resolve], absent or an object,
    and every other field. *)
Record ViteConfig : Type := {
  resolve : option ResolveOptions;
  configOther : Props
}.

(** The names the hook defines and the directories they stand for. *)
Definition projectAliases : list (jsstring * jsstring) :=
  [ (js "@", js "../src");
    (js "@/components", js "../src/components");
    (js "@/hooks", js "../src/hooks");
    (js "@/utils", js "../src/utils");
    (js "@/types", js "../src/types") ].

(** The aliases a configuration comes with; none without [resolve] or
    without [alias]. *)
Definition aliasesOf (config : ViteConfig) : Props :=
  default ∅ (r ← resolve config; alias r).

Section ViteFinal.

(** [resolve] of the [path] module and [__dirname], both given by the
    platform. *)
Variable pathResolve : jsstring → jsstring → jsstring.
Variable dirname : jsstring.

(** The entries the object literal adds after the spread. *)
Definition added : Props :=
  list_to_map
    (map (λ e : jsstring * jsstring, (e.1, VString (pathResolve dirname e.2)))
       projectAliases).

(** [config.resolve = config.resolve || {}], then
    [config.resolve.alias = { ...config.resolve.alias, '@': ..., ... }];
    in the literal a later entry replaces an earlier one of the same
    name. *)
Definition viteFinal (config : ViteConfig) : ViteConfig :=
  let r := default {| alias := None; resolveOther := ∅ |} (resolve config) in
  {| resolve := Some {| alias := Some (added ∪ default ∅ (alias r));
                        resolveOther := resolveOther r |};
     configOther := configOther config |}.

End ViteFinal.

End Storybook.

(** ** A configuration handed to the hook *)

Module StorybookCases.

(** A configuration that comes with aliases of its own, one of them under
    a project name. *)
Definition withAlias : Storybook.ViteConfig :=
  {| Storybook.resolve :=
       Some {| Storybook.alias :=
                 Some (<[js "@" := VString (js "/elsewhere")]>
                         {[js "~" := VString (js "/app/lib")]});
               Storybook.resolveOther := ∅ |};
     Storybook.configOther := ∅ |}.

End StorybookCases.

(** ** Further props objects *)

Module Cases.

(** [<Button className="  ">Click me</Button>] *)
Definition blankClass : Props :=
  <[js "className" := VString (js "  ")]> Examples.plain.

End Cases.

(** ** What the caller wrote *)

Module Caller.

(** The variant a props object asks for: the member of the union whose
    string literal stands under [variant], and [primary] when nothing or
    [undefined] stands there. *)
Definition variantGiven (o : Props) (v : Button.VariantKind) : Prop :=
  match o !! js "variant" with
  | None | Some VUndefined => v = Button.primary
  | Some (VString s) => s = Button.variantKey v
  | Some _ => False
  end.

(** The size a props object asks for, [medium] when left out. *)
Definition sizeGiven (o : Props) (z : Button.SizeKind) : Prop :=
  match o !! js "size" with
  | None | Some VUndefined => z = Button.medium
  | Some (VString s) => s = Button.sizeKey z
  | Some _ => False
  end.

(** The [className] a props object passes, the empty string when left
    out. *)
Definition classNameGiven (o : Props) (c : jsstring) : Prop :=
  match o !! js "className" with
  | None | Some VUndefined => c = []
  | Some (VString s) => c = s
  | Some _ => False
  end.

(** [<Button variant="destructive" size="large" className="extra-token">Delete</Button>] *)
Definition destructiveLargeCustom : Props :=
  <[js "variant" := VString (js "destructive")]>
    (<[js "size" := VString (js "large")]>
       (<[js "className" := VString (js "extra-token")]>
          {[js "children" := VString (js "Delete")]})).

(** [<Button variant="ghost" size="small" isLoading>Saving</Button>] *)
Definition ghostSmallLoading : Props :=
  <[js "variant" := VString (js "ghost")]>
    (<[js "size" := VString (js "small")]>
       (<[js "isLoading" := VBool true]>
          {[js "children" := VString (js "Saving")]})).

End Caller.

(** The type of an element, nothing for a value that is not an element. *)
Definition elementType (v : value) : option jsstring :=
  match v with
  | VElement type _ => Some type
  | _ => None
  end.

(** ** Facts about strings *)

Lemma pieces_not_nil (s : jsstring) : pieces s ≠ [].
Proof.
  destruct s as [|c s]; simpl; [discriminate|].
  destruct (isWhiteSpace c); [discriminate|].
  destruct (pieces s); discriminate.
Qed.

Lemma pieces_app_sep (a b : jsstring) (c : N) :
  isWhiteSpace c = true → pieces (a ++ c :: b) = pieces a ++ pieces b.
Proof.
  intros Hc. induction a as [|x a IH]; simpl.
  - by rewrite Hc.
  - rewrite IH. destruct (isWhiteSpace x); [done|].
    pose proof (pieces_not_nil a) as Hne.
    destruct (pieces a); [done|reflexivity].
Qed.

Lemma tokens_app_sep (a b : jsstring) (c : N) :
  isWhiteSpace c = true → tokens (a ++ c :: b) = tokens a ++ tokens b.
Proof.
  intros Hc. unfold tokens. rewrite (pieces_app_sep _ _ _ Hc). apply List.filter_app.
Qed.

Lemma tokens_sep_cons (c : N) (s : jsstring) :
  isWhiteSpace c = true → tokens (c :: s) = tokens s.
Proof. intros Hc. apply (tokens_app_sep [] s c Hc). Qed.

Lemma tokens_all_sep (t : jsstring) :
  forallb isWhiteSpace t = true → tokens t = [].
Proof.
  induction t as [|c t IH]; [done|]. simpl. intros [Hc Ht]%andb_prop.
  rewrite (tokens_sep_cons _ _ Hc). auto.
Qed.

Lemma tokens_app_all_sep (a t : jsstring) :
  forallb isWhiteSpace t = true → tokens (a ++ t) = tokens a.
Proof.
  destruct t as [|c t]; simpl.
  - intros _. by rewrite app_nil_r.
  - intros [Hc Ht]%andb_prop.
    rewrite (tokens_app_sep _ _ _ Hc), (tokens_all_sep _ Ht). apply app_nil_r.
Qed.

(** What [trimEnd] drops is a run of white space at the end. *)
Lemma trimEnd_split (s : jsstring) :
  ∃ t, s = trimEnd s ++ t ∧ forallb isWhiteSpace t = true.
Proof.
  induction s as [|c s (t & Hs & Ht)]; [by exists []|]. simpl.
  destruct (trimEnd s) as [|x r] eqn:E.
  - destruct (isWhiteSpace c) eqn:Hc.
    + exists (c :: s). split; [done|]. simpl. rewrite Hc. simpl in Hs. by rewrite Hs.
    + exists t. split; [|done]. simpl in *. by f_equal.
  - exists t. split; [|done]. simpl in *. by f_equal.
Qed.

Lemma tokens_trimEnd (s : jsstring) : tokens (trimEnd s) = tokens s.
Proof.
  destruct (trimEnd_split s) as (t & Hs & Ht).
  rewrite Hs at 2. by rewrite tokens_app_all_sep.
Qed.

Lemma tokens_trimStart (s : jsstring) : tokens (trimStart s) = tokens s.
Proof.
  induction s as [|c s IH]; [done|]. simpl.
  destruct (isWhiteSpace c) eqn:Hc; [|done].
  by rewrite IH, tokens_sep_cons.
Qed.

(** Trimming changes no token. *)
Lemma tokens_trim (s : jsstring) : tokens (trim s) = tokens s.
Proof. unfold trim. by rewrite tokens_trimEnd, tokens_trimStart. Qed.

(** [trimEnd] leaves alone what stands before a code unit it keeps. *)
Lemma trimEnd_app_kept (a s : jsstring) :
  a ≠ [] → trimEnd a = a → trimEnd (a ++ s) = a ++ trimEnd s.
Proof.
  induction a as [|x a IH]; [done|]. intros _ Hkept.
  destruct a as [|y a].
  - simpl in *. destruct (isWhiteSpace x); [done|]. by destruct (trimEnd s).
  - assert (trimEnd (y :: a) = y :: a) as Hya.
    { change (trimEnd (x :: y :: a)) with
        (match trimEnd (y :: a) with
         | [] => if isWhiteSpace x then [] else [x]
         | r => x :: r
         end) in Hkept.
      destruct (trimEnd (y :: a)); [by destruct (isWhiteSpace x)|].
      congruence. }
    change (trimEnd ((x :: y :: a) ++ s)) with
      (match trimEnd ((y :: a) ++ s) with
       | [] => if isWhiteSpace x then [] else [x]
       | r => x :: r
       end).
    by rewrite (IH ltac:(done) Hya).
Qed.

(** A space between two strings separates their tokens. *)
Lemma tokens_app_space (a b : jsstring) :
  tokens (a ++ js " " ++ b) = tokens a ++ tokens b.
Proof. exact (tokens_app_sep a b 32 eq_refl). Qed.

(** The tokens of the template literal are those of its four parts. *)
Lemma tokens_combine (base v z c : jsstring) :
  tokens (Button.combine base v z c) = tokens base ++ tokens v ++ tokens z ++ tokens c.
Proof.
  unfold Button.combine.
  by rewrite tokens_trim, !tokens_app_space.
Qed.

(** ** Facts about the props object *)

Ltac key_neq := let H := fresh in intros H; vm_compute in H; discriminate H.

(** An entry of a table literal under a given name: either it is under
    another name, or its fragment is the one sought. *)
Ltac one_entry H :=
  let Hk := fresh in let Hf := fresh in
  apply pair_equal_spec in H as [Hk Hf];
  first [ vm_compute in Hk; discriminate Hk | exact (eq_sym Hf) ].

Lemma lookup_foldr_delete (ks : list jsstring) (o : Props) (k : jsstring) :
  foldr delete o ks !! k = if decide (k ∈ ks) then None else o !! k.
Proof.
  induction ks as [|x ks IH]; simpl; [done|].
  rewrite lookup_delete, IH.
  destruct (decide (k ∈ x :: ks)) as [Hc|Hc].
  - apply elem_of_cons in Hc as [->|Hc]; [by rewrite decide_True|].
    destruct (decide (x = k)); [done|]. by rewrite decide_True.
  - rewrite decide_False by (intros ->; apply Hc; left).
    rewrite decide_False; [done|]. intros ?. apply Hc. by right.
Qed.

(** The rest object holds no recognized name. *)
Lemma rest_recognized (o : Props) (k : jsstring) :
  k ∈ Button.recognized → Button.rest o !! k = None.
Proof. intros Hk. unfold Button.rest. rewrite lookup_foldr_delete. by case_decide. Qed.

(** The rest object holds every other property as the caller wrote it. *)
Lemma rest_other (o : Props) (k : jsstring) :
  k ∉ Button.recognized → Button.rest o !! k = o !! k.
Proof. intros Hk. unfold Button.rest. rewrite lookup_foldr_delete. by case_decide. Qed.

Lemma variantOfKey_member (s : jsstring) :
  s ∈ map Button.variantKey Button.allVariants → is_Some (Button.variantOfKey s).
Proof.
  intros H. apply list_elem_of_In in H. simpl in H.
  destruct H as [<-|[<-|[<-|[<-|[<-|[]]]]]]; vm_compute; eauto.
Qed.

Lemma sizeOfKey_member (s : jsstring) :
  s ∈ map Button.sizeKey Button.allSizes → is_Some (Button.sizeOfKey s).
Proof.
  intros H. apply list_elem_of_In in H. simpl in H.
  destruct H as [<-|[<-|[<-|[]]]]; vm_compute; eauto.
Qed.

(** What the parameter pattern binds, name by name. *)
Lemma destructure_inv (o : Props) (b : Button.Params) :
  Button.destructure o = Some b →
  Button.readVariant (o !! js "variant") = Some (Button.variant b)
  ∧ Button.readSize (o !! js "size") = Some (Button.size b)
  ∧ Button.readIsLoading (o !! js "isLoading") = Some (Button.isLoading b)
  ∧ Button.readDisabled (o !! js "disabled") = Some (Button.disabled b)
  ∧ Button.readClassName (o !! js "className") = Some (Button.className b)
  ∧ Button.children b = default VUndefined (o !! js "children")
  ∧ Button.props b = Button.rest o.
Proof.
  unfold Button.destructure. intros H.
  destruct (Button.readVariant _) as [v|]; [|done].
  destruct (Button.readSize _) as [z|]; [|done].
  destruct (Button.readIsLoading _) as [l|]; [|done].
  destruct (Button.readDisabled _) as [d|]; [|done].
  destruct (Button.readClassName _) as [c|]; [|done].
  simpl in H. injection H as <-. by repeat split.
Qed.

(** The parameter pattern binds every object of type [ButtonProps], and the
    component returns the element of the function body. *)
Lemma Button_renders (o : Props) :
  Button.ButtonProps_ok o = true →
  ∃ b, Button.destructure o = Some b ∧ Button.Button o = Some (Button.render b).
Proof.
  unfold Button.ButtonProps_ok, Button.Button, Button.destructure.
  intros H. repeat (apply andb_prop in H as [H ?]).
  assert (is_Some (Button.readVariant (o !! js "variant"))) as [v ->].
  { destruct (o !! js "variant") as [[]|]; simpl in *; try done; eauto.
    apply variantOfKey_member. by apply bool_decide_eq_true in H. }
  assert (is_Some (Button.readSize (o !! js "size"))) as [z ->].
  { destruct (o !! js "size") as [[]|]; simpl in *; try done; eauto.
    apply sizeOfKey_member. by apply bool_decide_eq_true in H3. }
  assert (is_Some (Button.readIsLoading (o !! js "isLoading"))) as [l ->].
  { destruct (o !! js "isLoading") as [[]|]; simpl in *; try done; eauto. }
  assert (is_Some (Button.readDisabled (o !! js "disabled"))) as [d ->].
  { destruct (o !! js "disabled") as [[]|]; simpl in *; try done; eauto. }
  assert (is_Some (Button.readClassName (o !! js "className"))) as [c ->].
  { destruct (o !! js "className") as [[]|]; simpl in *; try done; eauto. }
  simpl. eexists. by split.
Qed.

(** Only objects of type [ButtonProps] are bound. *)
Lemma destructure_typed (o : Props) :
  is_Some (Button.destructure o) → Button.ButtonProps_ok o = true.
Proof.
  intros [b Hb]. apply destructure_inv in Hb as (Hv & Hz & Hl & Hd & Hc & _).
  unfold Button.ButtonProps_ok.
  repeat (apply andb_true_intro; split).
  - destruct (o !! js "variant") as [[]|]; simpl in *; try done.
    apply bool_decide_eq_true. unfold Button.variantOfKey in Hv.
    apply List.find_some in Hv as [Hin Heq%bool_decide_eq_true]. subst s.
    apply list_elem_of_In.
    exact (List.in_map Button.variantKey Button.allVariants _ Hin).
  - destruct (o !! js "size") as [[]|]; simpl in *; try done.
    apply bool_decide_eq_true. unfold Button.sizeOfKey in Hz.
    apply List.find_some in Hz as [Hin Heq%bool_decide_eq_true]. subst s.
    apply list_elem_of_In.
    exact (List.in_map Button.sizeKey Button.allSizes _ Hin).
  - by destruct (o !! js "isLoading") as [[]|].
  - by destruct (o !! js "disabled") as [[]|].
  - by destruct (o !! js "className") as [[]|].
Qed.

(** Every variant, size and class string is the binding of some props
    object of type [ButtonProps]: the one that spells them out. *)
Lemma every_choice_written (v : Button.VariantKind) (z : Button.SizeKind) (c : jsstring) :
  ∃ o b,
    Button.ButtonProps_ok o = true
    ∧ Button.destructure o = Some b
    ∧ Button.variant b = v ∧ Button.size b = z ∧ Button.className b = c.
Proof.
  exists (<[js "variant" := VString (Button.variantKey v)]>
            (<[js "size" := VString (Button.sizeKey z)]>
               {[js "className" := VString c]})).
  destruct v, z; eexists; (split; [vm_compute; reflexivity|]);
    (split; [vm_compute; reflexivity|]); done.
Qed.

(** ** The props object of the rendered element *)

Lemma attr_render_className (b : Button.Params) :
  Button.props b !! js "className" = None →
  Button.attr (Button.render b) (js "className")
  = Some (VString (Button.combinedClasses b)).
Proof.
  intros Hrest. unfold Button.attr, Button.render, Button.propsOf.
  rewrite lookup_insert_ne by key_neq.
  rewrite lookup_union_r by done.
  rewrite lookup_insert_ne by key_neq.
  apply lookup_singleton_eq.
Qed.

Lemma attr_render_disabled (b : Button.Params) :
  Button.props b !! js "disabled" = None →
  Button.attr (Button.render b) (js "disabled")
  = Some (Button.jsOr (Button.disabled b) (VBool (Button.isLoading b))).
Proof.
  intros Hrest. unfold Button.attr, Button.render, Button.propsOf.
  rewrite lookup_insert_ne by key_neq.
  rewrite lookup_union_r by done.
  apply lookup_insert_eq.
Qed.

Lemma attr_render_children (b : Button.Params) :
  Button.attr (Button.render b) (js "children")
  = Some (VArray [Button.jsAnd (VBool (Button.isLoading b)) Button.spinner;
                  Button.children b]).
Proof. unfold Button.attr, Button.render, Button.propsOf. apply lookup_insert_eq. Qed.

Lemma attr_render_other (b : Button.Params) (k : jsstring) :
  k ∉ Button.recognized →
  Button.attr (Button.render b) k = Button.props b !! k.
Proof.
  intros Hk. unfold Button.attr, Button.render, Button.propsOf.
  assert (k ≠ js "children") as Hc by (intros ->; apply Hk; set_solver).
  assert (k ≠ js "disabled") as Hd by (intros ->; apply Hk; set_solver).
  assert (k ≠ js "className") as Hn by (intros ->; apply Hk; set_solver).
  rewrite lookup_insert_ne by done.
  rewrite lookup_union. rewrite lookup_insert_ne by done.
  rewrite lookup_singleton_ne by done.
  by destruct (Button.props b !! k).
Qed.

(** Both tables have an entry under every member of their union. *)
Lemma buttonVariants_lookup (v : Button.VariantKind) :
  is_Some (Button.buttonVariants !! Button.variantKey v).
Proof. destruct v; vm_compute; eauto. Qed.

Lemma buttonSizes_lookup (z : Button.SizeKind) :
  is_Some (Button.buttonSizes !! Button.sizeKey z).
Proof. destruct z; vm_compute; eauto. Qed.

(** The element of a bound object, property by property. *)
Section Rendered.

Variables (o : Props) (b : Button.Params).
Hypothesis Hbound : Button.destructure o = Some b.

Lemma rendered_className :
  Button.attr (Button.render b) (js "className")
  = Some (VString (Button.combinedClasses b)).
Proof.
  destruct (destructure_inv o b Hbound) as (_ & _ & _ & _ & _ & _ & Hrest).
  apply attr_render_className. rewrite Hrest. apply rest_recognized. set_solver.
Qed.

Lemma rendered_disabled :
  Button.attr (Button.render b) (js "disabled")
  = Some (VBool (Button.flag o (js "disabled") || Button.flag o (js "isLoading"))).
Proof.
  destruct (destructure_inv o b Hbound) as (_ & _ & Hl & Hd & _ & _ & Hrest).
  rewrite attr_render_disabled by (rewrite Hrest; apply rest_recognized; set_solver).
  unfold Button.flag, Button.jsOr. f_equal.
  destruct (o !! js "disabled") as [[| |[]| | | |]|]; simpl in Hd; try done;
    injection Hd as <-;
    destruct (o !! js "isLoading") as [[| |[]| | | |]|]; simpl in Hl; try done;
    by injection Hl as <-.
Qed.

Lemma rendered_other (k : jsstring) :
  k ∉ Button.recognized →
  Button.attr (Button.render b) k = o !! k.
Proof.
  intros Hk. destruct (destructure_inv o b Hbound) as (_ & _ & _ & _ & _ & _ & Hrest).
  by rewrite attr_render_other, Hrest, rest_other.
Qed.

Lemma isLoading_flag : Button.isLoading b = Button.flag o (js "isLoading").
Proof.
  destruct (destructure_inv o b Hbound) as (_ & _ & Hl & _).
  unfold Button.flag.
  destruct (o !! js "isLoading") as [[]|]; simpl in Hl; try done; by injection Hl as <-.
Qed.

End Rendered.

(** The base fragment opens with a code unit that [trimStart] keeps. *)
Lemma trimStart_baseClasses (s : jsstring) :
  trimStart (Button.baseClasses ++ s) = Button.baseClasses ++ s.
Proof. reflexivity. Qed.

(** Base, variant and size fragments joined by spaces end in a code unit
    that [trimEnd] keeps. *)
Lemma fragments_kept (v : Button.VariantKind) (z : Button.SizeKind) (vf zf : jsstring) :
  Button.buttonVariants !! Button.variantKey v = Some vf →
  Button.buttonSizes !! Button.sizeKey z = Some zf →
  trimEnd (Button.baseClasses ++ js " " ++ vf ++ js " " ++ zf)
  = Button.baseClasses ++ js " " ++ vf ++ js " " ++ zf.
Proof.
  intros Hvf Hzf.
  destruct v, z; vm_compute in Hvf; vm_compute in Hzf;
    injection Hvf as <-; injection Hzf as <-; vm_compute; reflexivity.
Qed.

(** The class string, code unit by code unit: the three fragments joined
    by spaces, then a space and the caller's [className] without the white
    space at its end, or nothing when [className] is white space only. *)
Lemma combinedClasses_shape (b : Button.Params) (vf zf : jsstring) :
  Button.buttonVariants !! Button.variantKey (Button.variant b) = Some vf →
  Button.buttonSizes !! Button.sizeKey (Button.size b) = Some zf →
  Button.combinedClasses b
  = Button.baseClasses ++ js " " ++ vf ++ js " " ++ zf
    ++ trimEnd (js " " ++ Button.className b).
Proof.
  intros Hvf Hzf. unfold Button.combinedClasses, Button.combine, trim.
  rewrite Hvf, Hzf. simpl interpolate. rewrite trimStart_baseClasses.
  pose proof (fragments_kept _ _ vf zf Hvf Hzf) as Hkept.
  replace (Button.baseClasses ++ js " " ++ vf ++ js " " ++ zf
           ++ js " " ++ Button.className b)
    with ((Button.baseClasses ++ js " " ++ vf ++ js " " ++ zf)
          ++ js " " ++ Button.className b)
    by (by rewrite <- !app_assoc).
  rewrite trimEnd_app_kept; [by rewrite <- !app_assoc| |done].
  by destruct Button.baseClasses.
Qed.

(** The tokens of the class string, given the two table entries. *)
Lemma tokens_combinedClasses (b : Button.Params) (vf zf : jsstring) :
  Button.buttonVariants !! Button.variantKey (Button.variant b) = Some vf →
  Button.buttonSizes !! Button.sizeKey (Button.size b) = Some zf →
  tokens (Button.combinedClasses b)
  = tokens Button.baseClasses ++ tokens vf ++ tokens zf ++ tokens (Button.className b).
Proof.
  intros Hvf Hzf. unfold Button.combinedClasses. rewrite Hvf, Hzf. apply tokens_combine.
Qed.

(** Reading back the string literal of a member gives the member. *)
Lemma variantOfKey_variantKey (v : Button.VariantKind) :
  Button.variantOfKey (Button.variantKey v) = Some v.
Proof. by destruct v. Qed.

Lemma sizeOfKey_sizeKey (z : Button.SizeKind) :
  Button.sizeOfKey (Button.sizeKey z) = Some z.
Proof. by destruct z. Qed.

(** The pattern binds what the caller wrote. *)
Section Bound.

Variables (o : Props) (b : Button.Params).
Hypothesis Hbound : Button.destructure o = Some b.

Lemma bound_variant (v : Button.VariantKind) :
  Caller.variantGiven o v → Button.variant b = v.
Proof.
  destruct (destructure_inv o b Hbound) as (Hv & _).
  unfold Caller.variantGiven.
  destruct (o !! js "variant") as [[]|]; simpl in Hv; try done;
    intros ->; rewrite ?variantOfKey_variantKey in Hv; by injection Hv.
Qed.

Lemma bound_size (z : Button.SizeKind) :
  Caller.sizeGiven o z → Button.size b = z.
Proof.
  destruct (destructure_inv o b Hbound) as (_ & Hz & _).
  unfold Caller.sizeGiven.
  destruct (o !! js "size") as [[]|]; simpl in Hz; try done;
    intros ->; rewrite ?sizeOfKey_sizeKey in Hz; by injection Hz.
Qed.

Lemma bound_className (c : jsstring) :
  Caller.classNameGiven o c → Button.className b = c.
Proof.
  destruct (destructure_inv o b Hbound) as (_ & _ & _ & _ & Hc & _).
  unfold Caller.classNameGiven.
  destruct (o !! js "className") as [[]|]; simpl in Hc; try done;
    intros ->; by injection Hc.
Qed.

End Bound.

(** ** The claims *)

(** C1: for every variant, size and [className] a caller asks for, written
    out or left to the default, the class string of the rendered element
    holds, token by token, the base fragment, then the entry of that
    variant, then the entry of that size, then the caller's [className],
    in that order; code unit by code unit it is the three fragments joined
    by spaces, followed by a space and [className] up to the white space
    at its end; when the caller's [className] is [extra-token], that is
    the last token. *)
Theorem combined_classes_in_order
    (o : Props) (v : Button.VariantKind) (z : Button.SizeKind) (c : jsstring) :
  Button.ButtonProps_ok o = true →
  Caller.variantGiven o v →
  Caller.sizeGiven o z →
  Caller.classNameGiven o c →
  ∃ e composed vf zf,
    Button.Button o = Some e
    ∧ Button.attr e (js "className") = Some (VString composed)
    ∧ Button.buttonVariants !! Button.variantKey v = Some vf
    ∧ (Button.variantKey v, vf) ∈ Button.buttonVariantsEntries
    ∧ Button.buttonSizes !! Button.sizeKey z = Some zf
    ∧ (Button.sizeKey z, zf) ∈ Button.buttonSizesEntries
    ∧ tokens composed = tokens Button.baseClasses ++ tokens vf ++ tokens zf ++ tokens c
    ∧ composed
      = Button.baseClasses ++ js " " ++ vf ++ js " " ++ zf ++ trimEnd (js " " ++ c)
    ∧ (c = js "extra-token" → last (tokens composed) = Some (js "extra-token")).
Proof.
  intros Hok Hv Hz Hc. destruct (Button_renders o Hok) as (b & Hb & He).
  pose proof (bound_variant o b Hb v Hv) as Ev.
  pose proof (bound_size o b Hb z Hz) as Ez.
  pose proof (bound_className o b Hb c Hc) as Ec.
  destruct (buttonVariants_lookup v) as [vf Hvf].
  destruct (buttonSizes_lookup z) as [zf Hzf].
  assert (tokens (Button.combinedClasses b)
          = tokens Button.baseClasses ++ tokens vf ++ tokens zf ++ tokens c) as Htok.
  { rewrite <- Ec. apply tokens_combinedClasses; by rewrite ?Ev, ?Ez. }
  exists (Button.render b), (Button.combinedClasses b), vf, zf.
  split; [done|]. split; [exact (rendered_className o b Hb)|].
  split; [done|]. split; [by apply elem_of_list_to_map_2|].
  split; [done|]. split; [by apply elem_of_list_to_map_2|].
  split; [done|]. split.
  - rewrite <- Ec. apply combinedClasses_shape; by rewrite ?Ev, ?Ez.
  - intros ->. rewrite Htok, !app_assoc.
    change (tokens (js "extra-token")) with [js "extra-token"].
    apply last_snoc.
Qed.

Lemma combined_classes_in_order_witness :
  ∃ e composed,
    Button.Button Caller.destructiveLargeCustom = Some e
    ∧ Button.attr e (js "className") = Some (VString composed)
    ∧ tokens composed
      = tokens Button.baseClasses
        ++ tokens (js "bg-red-600 text-white hover:bg-red-700 focus:ring-red-500")
        ++ tokens (js "px-6 py-3 text-lg")
        ++ [js "extra-token"]
    ∧ last (tokens composed) = Some (js "extra-token").
Proof.
  destruct (combined_classes_in_order Caller.destructiveLargeCustom
              Button.destructive Button.large (js "extra-token")
              eq_refl eq_refl eq_refl eq_refl)
    as (e & composed & vf & zf & He & Hattr & Hvf & _ & Hzf & _ & Htok & _ & Hlast).
  exists e, composed. split; [exact He|]. split; [exact Hattr|]. split.
  - rewrite Htok.
    vm_compute in Hvf. injection Hvf as <-.
    vm_compute in Hzf. injection Hzf as <-. reflexivity.
  - exact (Hlast eq_refl).
Defined.

(** C2: the [disabled] flag of the rendered element is the caller's
    [disabled] or the caller's [isLoading], whatever else the props object
    holds; in particular for each of the four pairs of booleans. *)
Theorem effective_disabled_is_or (o : Props) :
  Button.ButtonProps_ok o = true →
  ∃ e, Button.Button o = Some e
    ∧ Button.attr e (js "disabled")
      = Some (VBool (Button.flag o (js "disabled") || Button.flag o (js "isLoading")))
    ∧ ∀ d l : bool,
        o !! js "disabled" = Some (VBool d) →
        o !! js "isLoading" = Some (VBool l) →
        Button.attr e (js "disabled") = Some (VBool (d || l)).
Proof.
  intros Hok. destruct (Button_renders o Hok) as (b & Hb & He).
  exists (Button.render b). split; [done|].
  pose proof (rendered_disabled o b Hb) as Hd. split; [done|].
  intros d l Ho Hl. rewrite Hd. unfold Button.flag. by rewrite Ho, Hl.
Qed.

Lemma effective_disabled_is_or_witness :
  Button.attr (default VNull (Button.Button Examples.loading)) (js "disabled")
  = Some (VBool true).
Proof.
  destruct (effective_disabled_is_or Examples.loading eq_refl) as (e & He & Hd & _).
  rewrite He. exact Hd.
Defined.

(** C3: with the caller's function under [onClick], any number of
    activation events delivered to the rendered control calls it not at all
    when [disabled] or [isLoading] is set, and once per event otherwise. *)
Theorem activation_guard (o : Props) (f : N) (n : nat) :
  Button.ButtonProps_ok o = true →
  o !! js "onClick" = Some (VFunction f) →
  ∃ e, Button.Button o = Some e
    ∧ Host.dispatch n e
      = (if Button.flag o (js "disabled") || Button.flag o (js "isLoading")
         then [] else replicate n f)
    ∧ Host.timesCalled f (Host.dispatch n e)
      = (if Button.flag o (js "disabled") || Button.flag o (js "isLoading")
         then 0%nat else n).
Proof.
  intros Hok Hclick. destruct (Button_renders o Hok) as (b & Hb & He).
  exists (Button.render b). split; [done|].
  pose proof (rendered_disabled o b Hb) as Hd.
  assert (Button.attr (Button.render b) (js "onClick") = Some (VFunction f)) as Hf.
  { rewrite (rendered_other o b Hb); [done|].
    unfold Button.recognized.
    repeat (apply not_elem_of_cons; split; [key_neq|]). apply not_elem_of_nil. }
  assert (Host.dispatch n (Button.render b)
          = if Button.flag o (js "disabled") || Button.flag o (js "isLoading")
            then [] else replicate n f) as Hcalls.
  { unfold Host.dispatch. induction n as [|n IH]; simpl.
    - by destruct (_ || _).
    - rewrite IH. unfold Host.activate. rewrite Hd, Hf. simpl.
      destruct (_ || _); [done|]. symmetry. apply replicate_S_end. }
  split; [done|]. rewrite Hcalls. destruct (_ || _); [done|].
  unfold Host.timesCalled. clear. induction n as [|n IH]; simpl; [done|].
  rewrite N.eqb_refl. simpl. by rewrite IH.
Qed.

Lemma activation_guard_witness :
  Host.timesCalled 7 (Host.dispatch 3 (default VNull (Button.Button Examples.click))) = 3%nat
  ∧ Host.timesCalled 7 (Host.dispatch 3 (default VNull (Button.Button Examples.disabledClick)))
    = 0%nat.
Proof.
  split.
  - destruct (activation_guard Examples.click 7 3 eq_refl eq_refl) as (e & He & _ & Hn).
    rewrite He. exact Hn.
  - destruct (activation_guard Examples.disabledClick 7 3 eq_refl eq_refl)
      as (e & He & _ & Hn).
    rewrite He. exact Hn.
Defined.

(** C4: the child the component puts ahead of the caller's children is,
    when [isLoading] is set, an [svg] element of class [animate-spin] that
    holds a [circle] and a [path], and when it is not set the value
    [false], which is no element and draws nothing; so the rendered button
    holds the spinner element exactly when [isLoading] is set. *)
Theorem busy_indicator_iff_loading (o : Props) :
  Button.ButtonProps_ok o = true →
  ∃ e slot content,
    Button.Button o = Some e
    ∧ Button.attr e (js "children") = Some (VArray [slot; content])
    ∧ (Button.flag o (js "isLoading") = true → slot = Button.spinner)
    ∧ (Button.flag o (js "isLoading") = false → slot = VBool false)
    ∧ (slot = Button.spinner ↔ Button.flag o (js "isLoading") = true)
    ∧ (elementType slot = Some (js "svg") ↔ Button.flag o (js "isLoading") = true)
    ∧ (Button.flag o (js "isLoading") = false → elementType slot = None)
    ∧ (Button.flag o (js "isLoading") = true →
       ∃ attrs circle path,
         slot = VElement (js "svg") attrs
         ∧ attrs !! js "className" = Some (VString (js "w-4 h-4 mr-2 animate-spin"))
         ∧ js "animate-spin" ∈ tokens (js "w-4 h-4 mr-2 animate-spin")
         ∧ attrs !! js "viewBox" = Some (VString (js "0 0 24 24"))
         ∧ attrs !! js "children"
           = Some (VArray [VElement (js "circle") circle; VElement (js "path") path])
         ∧ circle !! js "className" = Some (VString (js "opacity-25"))
         ∧ path !! js "className" = Some (VString (js "opacity-75"))).
Proof.
  intros Hok. destruct (Button_renders o Hok) as (b & Hb & He).
  exists (Button.render b), (Button.jsAnd (VBool (Button.isLoading b)) Button.spinner),
    (Button.children b).
  split; [done|]. split; [apply attr_render_children|].
  rewrite (isLoading_flag o b Hb). unfold Button.jsAnd. simpl.
  destruct (Button.flag o (js "isLoading")).
  - repeat split; try done. intros _. unfold Button.spinner.
    eexists _, _, _. split; [reflexivity|].
    repeat split; try (vm_compute; reflexivity).
    apply list_elem_of_In. vm_compute. tauto.
  - repeat split; try done.
Qed.

Lemma busy_indicator_iff_loading_witness :
  (∃ e slot content,
     Button.Button Caller.ghostSmallLoading = Some e
     ∧ Button.attr e (js "children") = Some (VArray [slot; content])
     ∧ elementType slot = Some (js "svg"))
  ∧ (∃ e content,
       Button.Button Examples.plain = Some e
       ∧ Button.attr e (js "children") = Some (VArray [VBool false; content])).
Proof.
  split.
  - destruct (busy_indicator_iff_loading Caller.ghostSmallLoading eq_refl)
      as (e & slot & content & He & Hc & _ & _ & _ & Hsvg & _).
    exists e, slot, content. split; [exact He|]. split; [exact Hc|].
    apply Hsvg. reflexivity.
  - destruct (busy_indicator_iff_loading Examples.plain eq_refl)
      as (e & slot & content & He & Hc & _ & Hoff & _).
    exists e, content. split; [exact He|]. by rewrite <- (Hoff eq_refl).
Defined.

(** C5: each table has exactly one entry under every member of its union,
    so reading it never comes back empty and nothing stands in for a
    missing fragment. *)
Theorem resolvers_total :
  (∀ v : Button.VariantKind,
     ∃ f, Button.buttonVariants !! Button.variantKey v = Some f
          ∧ ∀ f', (Button.variantKey v, f') ∈ Button.buttonVariantsEntries → f' = f)
  ∧ (∀ z : Button.SizeKind,
       ∃ f, Button.buttonSizes !! Button.sizeKey z = Some f
            ∧ ∀ f', (Button.sizeKey z, f') ∈ Button.buttonSizesEntries → f' = f).
Proof.
  split.
  - intros v. destruct v; eexists; (split; [vm_compute; reflexivity|]);
      intros f' Hin; apply list_elem_of_In in Hin; simpl in Hin;
      repeat (destruct Hin as [Hin|Hin]; [by one_entry Hin|]); destruct Hin.
  - intros z. destruct z; eexists; (split; [vm_compute; reflexivity|]);
      intros f' Hin; apply list_elem_of_In in Hin; simpl in Hin;
      repeat (destruct Hin as [Hin|Hin]; [by one_entry Hin|]); destruct Hin.
Qed.

Lemma resolvers_total_witness :
  Button.buttonVariants !! js "ghost"
  = Some (js "text-gray-700 hover:bg-gray-100 focus:ring-gray-500")
  ∧ Button.buttonSizes !! js "small" = Some (js "px-3 py-1.5 text-sm").
Proof.
  destruct resolvers_total as [Hv Hz]. split.
  - destruct (Hv Button.ghost) as (f & Hf & Honly).
    change (js "ghost") with (Button.variantKey Button.ghost).
    rewrite Hf. f_equal. symmetry. apply Honly.
    apply list_elem_of_In. do 4 right. left. reflexivity.
  - destruct (Hz Button.small) as (f & Hf & Honly).
    change (js "small") with (Button.sizeKey Button.small).
    rewrite Hf. f_equal. symmetry. apply Honly.
    apply list_elem_of_In. left. reflexivity.
Defined.

(** C6: every fragment of either table holds at least one token, and two
    different members of a union have different fragments, with different
    tokens. *)
Theorem fragments_nonempty_distinct :
  (∀ v : Button.VariantKind,
     ∃ f, Button.buttonVariants !! Button.variantKey v = Some f ∧ tokens f ≠ [])
  ∧ (∀ v1 v2 : Button.VariantKind,
       v1 ≠ v2 →
       Button.buttonVariants !! Button.variantKey v1
       ≠ Button.buttonVariants !! Button.variantKey v2
       ∧ tokens <$> Button.buttonVariants !! Button.variantKey v1
         ≠ tokens <$> Button.buttonVariants !! Button.variantKey v2)
  ∧ (∀ z : Button.SizeKind,
       ∃ f, Button.buttonSizes !! Button.sizeKey z = Some f ∧ tokens f ≠ [])
  ∧ (∀ z1 z2 : Button.SizeKind,
       z1 ≠ z2 →
       Button.buttonSizes !! Button.sizeKey z1 ≠ Button.buttonSizes !! Button.sizeKey z2
       ∧ tokens <$> Button.buttonSizes !! Button.sizeKey z1
         ≠ tokens <$> Button.buttonSizes !! Button.sizeKey z2).
Proof.
  repeat split.
  - destruct v; eexists; (split; [vm_compute; reflexivity|]); vm_compute; discriminate.
  - destruct v1, v2; try done; vm_compute; discriminate.
  - destruct v1, v2; try done; vm_compute; discriminate.
  - destruct z; eexists; (split; [vm_compute; reflexivity|]); vm_compute; discriminate.
  - destruct z1, z2; try done; vm_compute; discriminate.
  - destruct z1, z2; try done; vm_compute; discriminate.
Qed.

Lemma fragments_nonempty_distinct_witness :
  Button.buttonVariants !! js "primary" ≠ Button.buttonVariants !! js "secondary"
  ∧ Button.buttonSizes !! js "small" ≠ Button.buttonSizes !! js "large".
Proof.
  destruct fragments_nonempty_distinct as (_ & Hv & _ & Hz). split.
  - apply (Hv Button.primary Button.secondary). discriminate.
  - apply (Hz Button.small Button.large). discriminate.
Defined.

(** C7: written with children only, the button takes the primary variant
    and the medium size: its class string is the base fragment, the primary
    fragment and the medium fragment and nothing more, and it is not
    disabled. *)
Theorem defaults_apply (content : value) :
  ∃ e composed pf mf,
    Button.Button {[js "children" := content]} = Some e
    ∧ Button.buttonVariants !! Button.variantKey Button.primary = Some pf
    ∧ Button.buttonSizes !! Button.sizeKey Button.medium = Some mf
    ∧ Button.attr e (js "className") = Some (VString composed)
    ∧ tokens composed = tokens Button.baseClasses ++ tokens pf ++ tokens mf
    ∧ composed = Button.baseClasses ++ js " " ++ pf ++ js " " ++ mf
    ∧ Button.attr e (js "disabled") = Some (VBool false).
Proof.
  set (o := {[js "children" := content]} : Props).
  assert (Button.ButtonProps_ok o = true) as Hok by reflexivity.
  destruct (Button_renders o Hok) as (b & Hb & He).
  pose proof (destructure_inv o b Hb) as (Hv & Hz & _ & _ & Hc & _).
  assert (Button.variant b = Button.primary) as Hv' by (by injection Hv).
  assert (Button.size b = Button.medium) as Hz' by (by injection Hz).
  assert (Button.className b = []) as Hc' by (by injection Hc).
  destruct (buttonVariants_lookup Button.primary) as [pf Hpf].
  destruct (buttonSizes_lookup Button.medium) as [mf Hmf].
  exists (Button.render b), (Button.combinedClasses b), pf, mf.
  split; [done|]. split; [done|]. split; [done|].
  split; [exact (rendered_className o b Hb)|].
  split; [|split].
  - rewrite (tokens_combinedClasses b pf mf) by (by rewrite ?Hv', ?Hz').
    rewrite Hc'. change (tokens []) with (@nil jsstring). by rewrite app_nil_r.
  - unfold Button.combinedClasses. rewrite Hv', Hz', Hc', Hpf, Hmf.
    vm_compute in Hpf. vm_compute in Hmf.
    injection Hpf as <-. injection Hmf as <-. vm_compute. reflexivity.
  - by rewrite (rendered_disabled o b Hb).
Qed.

(** C8: every property of the props object other than the six the
    component takes is on the rendered element with the value the caller
    gave it, a property the caller left out is not there, and the caller's
    children are the element's last child as they came. *)
Theorem extra_attributes_forwarded (o : Props) :
  Button.ButtonProps_ok o = true →
  ∃ e slot,
    Button.Button o = Some e
    ∧ (∀ k, k ∉ Button.recognized → Button.attr e k = o !! k)
    ∧ Button.attr e (js "children")
      = Some (VArray [slot; default VUndefined (o !! js "children")]).
Proof.
  intros Hok. destruct (Button_renders o Hok) as (b & Hb & He).
  pose proof (destructure_inv o b Hb) as (_ & _ & _ & _ & _ & Hch & _).
  exists (Button.render b), (Button.jsAnd (VBool (Button.isLoading b)) Button.spinner).
  split; [done|]. split.
  - intros k Hk. by apply (rendered_other o b Hb).
  - by rewrite attr_render_children, Hch.
Qed.

Lemma extra_attributes_forwarded_witness :
  Button.attr (default VNull (Button.Button Examples.destructiveLarge)) (js "data-testid")
  = Some (VString (js "custom-button")).
Proof.
  destruct (extra_attributes_forwarded Examples.destructiveLarge eq_refl)
    as (e & slot & He & Hk & _).
  rewrite He. simpl. rewrite Hk; [reflexivity|].
  unfold Button.recognized.
  repeat (apply not_elem_of_cons; split; [key_neq|]). apply not_elem_of_nil.
Defined.

(** C10: the object the component forwards holds none of the six names it
    takes, so the class string and the [disabled] flag of the rendered
    element are the computed ones, and adding any properties under other
    names to the props object changes neither. *)
Theorem forwarded_cannot_overwrite (o extra : Props) :
  Button.ButtonProps_ok o = true →
  (∀ k, k ∈ Button.recognized → extra !! k = None) →
  ∃ b e e',
    Button.destructure o = Some b
    ∧ Button.Button o = Some e
    ∧ Button.Button (extra ∪ o) = Some e'
    ∧ (∀ k, k ∈ Button.recognized → Button.props b !! k = None)
    ∧ Button.attr e (js "className") = Some (VString (Button.combinedClasses b))
    ∧ Button.attr e (js "disabled")
      = Some (VBool (Button.flag o (js "disabled") || Button.flag o (js "isLoading")))
    ∧ Button.attr e' (js "className") = Button.attr e (js "className")
    ∧ Button.attr e' (js "disabled") = Button.attr e (js "disabled").
Proof.
  intros Hok Hextra.
  assert (∀ k, k ∈ Button.recognized → (extra ∪ o) !! k = o !! k) as Hsame.
  { intros k Hk. apply lookup_union_r. by apply Hextra. }
  assert (Button.ButtonProps_ok (extra ∪ o) = true) as Hok'.
  { unfold Button.ButtonProps_ok in *.
    by rewrite !Hsame by (unfold Button.recognized; set_solver). }
  destruct (Button_renders o Hok) as (b & Hb & He).
  destruct (Button_renders (extra ∪ o) Hok') as (b' & Hb' & He').
  pose proof (destructure_inv o b Hb) as (Hv & Hz & _ & _ & Hc & _ & Hrest).
  pose proof (destructure_inv _ b' Hb') as (Hv' & Hz' & _ & _ & Hc' & _ & _).
  rewrite Hsame in Hv', Hz', Hc' by (unfold Button.recognized; set_solver).
  exists b, (Button.render b), (Button.render b').
  split; [done|]. split; [done|]. split; [done|]. split.
  { intros k Hk. rewrite Hrest. by apply rest_recognized. }
  split; [exact (rendered_className o b Hb)|].
  split; [exact (rendered_disabled o b Hb)|]. split.
  - rewrite (rendered_className _ b' Hb'), (rendered_className o b Hb).
    unfold Button.combinedClasses.
    by replace (Button.variant b') with (Button.variant b) by congruence;
       replace (Button.size b') with (Button.size b) by congruence;
       replace (Button.className b') with (Button.className b) by congruence.
  - rewrite (rendered_disabled _ b' Hb'), (rendered_disabled o b Hb).
    unfold Button.flag.
    by rewrite !Hsame by (unfold Button.recognized; set_solver).
Qed.

Lemma forwarded_cannot_overwrite_witness :
  Button.attr
    (default VNull
       (Button.Button ({[js "aria-disabled" := VBool false]} ∪ Examples.disabledClick)))
    (js "disabled")
  = Some (VBool true).
Proof.
  assert (∀ k, k ∈ Button.recognized →
               ({[js "aria-disabled" := VBool false]} : Props) !! k = None) as Hextra.
  { intros k Hk. apply lookup_singleton_ne. intros <-. revert Hk.
    unfold Button.recognized.
    repeat (apply not_elem_of_cons; split; [key_neq|]). apply not_elem_of_nil. }
  destruct (forwarded_cannot_overwrite Examples.disabledClick
              {[js "aria-disabled" := VBool false]} eq_refl Hextra)
    as (b & e & e' & _ & _ & He' & _ & _ & Hd & _ & Hd').
  rewrite He'. simpl. rewrite Hd', Hd. reflexivity.
Defined.

(** ** The test suite's renders, evaluated *)

(** [<Button>Click me</Button>]: the class string in full. *)
Example plain_className :
  Button.attr (default VNull (Button.Button Examples.plain)) (js "className")
  = Some (VString (js "inline-flex items-center justify-center font-medium rounded-md transition-colors focus:outline-none focus:ring-2 focus:ring-offset-2 disabled:opacity-50 disabled:pointer-events-none bg-blue-600 text-white hover:bg-blue-700 focus:ring-blue-500 px-4 py-2 text-base")).
Proof. vm_compute. reflexivity. Qed.

(** [<Button variant="destructive" size="large" data-testid="custom-button">]:
    the class string ends in the destructive and large fragments, and the
    test id is on the element. *)
Example destructiveLarge_render :
  Button.attr (default VNull (Button.Button Examples.destructiveLarge)) (js "className")
  = Some (VString (Button.baseClasses
                   ++ js " bg-red-600 text-white hover:bg-red-700 focus:ring-red-500"
                   ++ js " px-6 py-3 text-lg"))
  ∧ Button.attr (default VNull (Button.Button Examples.destructiveLarge)) (js "data-testid")
    = Some (VString (js "custom-button")).
Proof. split; vm_compute; reflexivity. Qed.

(** [<Button isLoading>Loading</Button>] is disabled and shows the spinner;
    a click on it calls nothing. *)
Example loading_render :
  Button.attr (default VNull (Button.Button Examples.loading)) (js "disabled")
  = Some (VBool true)
  ∧ Button.attr (default VNull (Button.Button Examples.loading)) (js "children")
    = Some (VArray [Button.spinner; VString (js "Loading")])
  ∧ Host.dispatch 1 (default VNull (Button.Button Examples.loading)) = [].
Proof. repeat split; vm_compute; reflexivity. Qed.

(** [fireEvent.click] on [<Button onClick={handleClick}>]: one call. *)
Example click_calls_once :
  Host.dispatch 1 (default VNull (Button.Button Examples.click)) = [7].
Proof. vm_compute. reflexivity. Qed.

(** [fireEvent.click] on [<Button disabled onClick={handleClick}>]: none. *)
Example disabledClick_calls_nothing :
  Host.dispatch 1 (default VNull (Button.Button Examples.disabledClick)) = [].
Proof. vm_compute. reflexivity. Qed.

(** ** More about the component *)

(** Membership of a name in a list that is written out. *)
Ltac in_list :=
  apply list_elem_of_In; simpl; repeat (first [left; reflexivity | right]).

Lemma trimEnd_idem (s : jsstring) : trimEnd (trimEnd s) = trimEnd s.
Proof.
  induction s as [|c s IH]; [done|].
  change (trimEnd (c :: s)) with
    (match trimEnd s with
     | [] => if isWhiteSpace c then [] else [c]
     | r => c :: r
     end).
  destruct (trimEnd s) as [|x r] eqn:E.
  - destruct (isWhiteSpace c) eqn:Hc; [done|]. simpl. by rewrite Hc.
  - change (trimEnd (c :: x :: r)) with
      (match trimEnd (x :: r) with
       | [] => if isWhiteSpace c then [] else [c]
       | r' => c :: r'
       end).
    by rewrite IH.
Qed.

Lemma trimEnd_all_sep (s : jsstring) :
  forallb isWhiteSpace s = true → trimEnd s = [].
Proof.
  induction s as [|c s IH]; [done|]. simpl. intros [Hc Hs]%andb_prop.
  by rewrite (IH Hs), Hc.
Qed.

(** The type check reads the five typed properties and nothing else. *)
Lemma ButtonProps_ok_ext (o1 o2 : Props) :
  (∀ k, k ∈ Button.recognized → o1 !! k = o2 !! k) →
  Button.ButtonProps_ok o1 = Button.ButtonProps_ok o2.
Proof.
  intros Heq. unfold Button.ButtonProps_ok.
  by rewrite !Heq by in_list.
Qed.

(** The class string is read off three properties. *)
Lemma combinedClasses_ext (o1 o2 : Props) (b1 b2 : Button.Params) :
  Button.destructure o1 = Some b1 →
  Button.destructure o2 = Some b2 →
  o1 !! js "variant" = o2 !! js "variant" →
  o1 !! js "size" = o2 !! js "size" →
  Button.readClassName (o1 !! js "className") = Button.readClassName (o2 !! js "className") →
  Button.combinedClasses b1 = Button.combinedClasses b2.
Proof.
  intros Hb1 Hb2 Hv Hz Hc.
  destruct (destructure_inv o1 b1 Hb1) as (Hv1 & Hz1 & _ & _ & Hc1 & _).
  destruct (destructure_inv o2 b2 Hb2) as (Hv2 & Hz2 & _ & _ & Hc2 & _).
  rewrite Hv in Hv1. rewrite Hz in Hz1. rewrite Hc in Hc1.
  unfold Button.combinedClasses.
  by replace (Button.variant b1) with (Button.variant b2) by congruence;
     replace (Button.size b1) with (Button.size b2) by congruence;
     replace (Button.className b1) with (Button.className b2) by congruence.
Qed.

(** X1: the rendered element carries [className], [disabled], [children]
    and the caller's properties under other names, and nothing else:
    [variant], [size] and [isLoading] never reach the element. *)
Theorem only_rest_reaches_element (o : Props) :
  Button.ButtonProps_ok o = true →
  ∃ e, Button.Button o = Some e
    ∧ (∀ k, is_Some (Button.attr e k)
            ↔ k ∈ [js "className"; js "disabled"; js "children"]
              ∨ ((k ∉ Button.recognized) ∧ is_Some (o !! k)))
    ∧ Button.attr e (js "variant") = None
    ∧ Button.attr e (js "size") = None
    ∧ Button.attr e (js "isLoading") = None.
Proof.
  intros Hok. destruct (Button_renders o Hok) as (b & Hb & He).
  destruct (destructure_inv o b Hb) as (_ & _ & _ & _ & _ & _ & Hrest).
  assert (∀ k, k ∈ Button.recognized →
               k ∉ [js "className"; js "disabled"; js "children"] →
               Button.attr (Button.render b) k = None) as Hgone.
  { intros k Hk Hnot. unfold Button.attr, Button.render, Button.propsOf.
    rewrite lookup_insert_ne by (intros <-; apply Hnot; in_list).
    rewrite lookup_union_r by (rewrite Hrest; by apply rest_recognized).
    rewrite lookup_insert_ne by (intros <-; apply Hnot; in_list).
    apply lookup_singleton_ne. intros <-. apply Hnot. in_list. }
  exists (Button.render b). split; [done|]. split.
  - intros k. destruct (decide (k ∈ [js "className"; js "disabled"; js "children"])) as [Hin|Hnot].
    + split; [by left|]. intros _.
      apply elem_of_cons in Hin as [->|Hin]; [rewrite (rendered_className o b Hb); eauto|].
      apply elem_of_cons in Hin as [->|Hin]; [rewrite (rendered_disabled o b Hb); eauto|].
      apply elem_of_cons in Hin as [->|Hin]; [rewrite attr_render_children; eauto|].
      by apply elem_of_nil in Hin.
    + destruct (decide (k ∈ Button.recognized)) as [Hrec|Hrec].
      * rewrite (Hgone k Hrec Hnot). split; [by intros [? ?]|]. by intros [?|[? _]].
      * rewrite (rendered_other o b Hb k Hrec). split; [by right|]. by intros [?|[_ ?]].
  - repeat split; apply Hgone; try in_list;
      repeat (apply not_elem_of_cons; split; [key_neq|]); apply not_elem_of_nil.
Qed.

Lemma only_rest_reaches_element_witness :
  ∃ e, Button.Button Examples.destructiveLarge = Some e
    ∧ Button.attr e (js "variant") = None
    ∧ is_Some (Button.attr e (js "data-testid")).
Proof.
  destruct (only_rest_reaches_element Examples.destructiveLarge eq_refl)
    as (e & He & Hkeys & Hv & _).
  exists e. split; [exact He|]. split; [exact Hv|].
  apply Hkeys. right. split.
  - unfold Button.recognized.
    repeat (apply not_elem_of_cons; split; [key_neq|]). apply not_elem_of_nil.
  - vm_compute. eauto.
Defined.

(** X2: for each of the six names the component takes, passing
    [undefined] under it is the same as leaving it out: the default
    applies and the rendered element is the same. *)
Theorem undefined_is_omitted (o : Props) (k : jsstring) :
  k ∈ Button.recognized →
  Button.Button (<[k := VUndefined]> o) = Button.Button (delete k o).
Proof.
  intros Hk.
  assert (∀ (A : Type) (read : option value → A) j,
            read None = read (Some VUndefined) →
            read (<[k := VUndefined]> o !! j) = read (delete k o !! j)) as Hread.
  { intros A read j Hnone. destruct (decide (k = j)) as [<-|Hj].
    - by rewrite lookup_insert_eq, lookup_delete_eq.
    - by rewrite lookup_insert_ne, lookup_delete_ne. }
  assert (Button.rest (<[k := VUndefined]> o) = Button.rest (delete k o)) as Hrest.
  { apply map_eq. intros j. destruct (decide (j ∈ Button.recognized)) as [Hj|Hj].
    - by rewrite !rest_recognized.
    - rewrite !rest_other by done.
      assert (k ≠ j) by (by intros <-).
      by rewrite lookup_insert_ne, lookup_delete_ne. }
  unfold Button.Button, Button.destructure.
  rewrite (Hread _ Button.readVariant), (Hread _ Button.readSize),
    (Hread _ Button.readIsLoading), (Hread _ Button.readDisabled),
    (Hread _ Button.readClassName), (Hread _ (default VUndefined)), Hrest by done.
  reflexivity.
Qed.

Lemma undefined_is_omitted_witness :
  Button.Button (<[js "variant" := VUndefined]> Examples.destructiveLarge)
  = Button.Button (delete (js "variant") Examples.destructiveLarge).
Proof.
  apply (undefined_is_omitted Examples.destructiveLarge (js "variant")). in_list.
Defined.

(** X3: whatever [className] holds, the class string of the rendered
    element is not empty and has no white space at its start or at its
    end. *)
Theorem class_string_trimmed (o : Props) :
  Button.ButtonProps_ok o = true →
  ∃ e composed,
    Button.Button o = Some e
    ∧ Button.attr e (js "className") = Some (VString composed)
    ∧ composed ≠ []
    ∧ trimStart composed = composed
    ∧ trimEnd composed = composed.
Proof.
  intros Hok. destruct (Button_renders o Hok) as (b & Hb & He).
  destruct (buttonVariants_lookup (Button.variant b)) as [vf Hvf].
  destruct (buttonSizes_lookup (Button.size b)) as [zf Hzf].
  exists (Button.render b), (Button.combinedClasses b).
  split; [done|]. split; [exact (rendered_className o b Hb)|].
  rewrite (combinedClasses_shape b vf zf Hvf Hzf).
  split; [by destruct Button.baseClasses|]. split; [apply trimStart_baseClasses|].
  pose proof (fragments_kept _ _ vf zf Hvf Hzf) as Hkept.
  replace (Button.baseClasses ++ js " " ++ vf ++ js " " ++ zf
           ++ trimEnd (js " " ++ Button.className b))
    with ((Button.baseClasses ++ js " " ++ vf ++ js " " ++ zf)
          ++ trimEnd (js " " ++ Button.className b))
    by (by rewrite <- !app_assoc).
  rewrite trimEnd_app_kept; [by rewrite trimEnd_idem| |done].
  by destruct Button.baseClasses.
Qed.

Lemma class_string_trimmed_witness :
  ∃ e composed,
    Button.Button Examples.customClass = Some e
    ∧ Button.attr e (js "className") = Some (VString composed)
    ∧ trimEnd composed = composed.
Proof.
  destruct (class_string_trimmed Examples.customClass eq_refl)
    as (e & composed & He & Hc & _ & _ & Hend).
  by exists e, composed.
Defined.

(** X4: a [className] of white space only leaves no trace: the class
    string is the base, variant and size fragments joined by single spaces,
    with no space after them. *)
Theorem blank_className_leaves_no_trace (o : Props) (c : jsstring) :
  Button.ButtonProps_ok o = true →
  o !! js "className" = Some (VString c) →
  forallb isWhiteSpace c = true →
  ∃ b e vf zf,
    Button.destructure o = Some b ∧ Button.Button o = Some e
    ∧ Button.buttonVariants !! Button.variantKey (Button.variant b) = Some vf
    ∧ Button.buttonSizes !! Button.sizeKey (Button.size b) = Some zf
    ∧ Button.attr e (js "className")
      = Some (VString (Button.baseClasses ++ js " " ++ vf ++ js " " ++ zf)).
Proof.
  intros Hok Hc Hblank. destruct (Button_renders o Hok) as (b & Hb & He).
  destruct (destructure_inv o b Hb) as (_ & _ & _ & _ & Hcb & _).
  rewrite Hc in Hcb. injection Hcb as Hcb.
  destruct (buttonVariants_lookup (Button.variant b)) as [vf Hvf].
  destruct (buttonSizes_lookup (Button.size b)) as [zf Hzf].
  exists b, (Button.render b), vf, zf. repeat split; try done.
  rewrite (rendered_className o b Hb), (combinedClasses_shape b vf zf Hvf Hzf).
  rewrite <- Hcb, (trimEnd_all_sep (js " " ++ c)) by (simpl; exact Hblank).
  by rewrite app_nil_r.
Qed.

Lemma blank_className_leaves_no_trace_witness :
  Button.attr
    (default VNull (Button.Button Cases.blankClass)) (js "className")
  = Button.attr (default VNull (Button.Button Examples.plain)) (js "className").
Proof.
  destruct (blank_className_leaves_no_trace Cases.blankClass (js "  ")
              eq_refl eq_refl eq_refl)
    as (b & e & vf & zf & Hb & He & Hvf & Hzf & Hc).
  rewrite He. simpl. rewrite Hc.
  vm_compute in Hb. injection Hb as <-.
  vm_compute in Hvf. injection Hvf as <-.
  vm_compute in Hzf. injection Hzf as <-.
  vm_compute. reflexivity.
Defined.

(** X5: the class string is read off [variant], [size] and [className]
    alone: two props objects that agree on these three render the same
    class string, whatever [isLoading], [disabled], [children] and the
    other properties are. *)
Theorem classes_ignore_state (o1 o2 : Props) :
  Button.ButtonProps_ok o1 = true →
  Button.ButtonProps_ok o2 = true →
  o1 !! js "variant" = o2 !! js "variant" →
  o1 !! js "size" = o2 !! js "size" →
  o1 !! js "className" = o2 !! js "className" →
  ∃ e1 e2,
    Button.Button o1 = Some e1 ∧ Button.Button o2 = Some e2
    ∧ Button.attr e1 (js "className") = Button.attr e2 (js "className").
Proof.
  intros Hok1 Hok2 Hv Hz Hc.
  destruct (Button_renders o1 Hok1) as (b1 & Hb1 & He1).
  destruct (Button_renders o2 Hok2) as (b2 & Hb2 & He2).
  exists (Button.render b1), (Button.render b2). split; [done|]. split; [done|].
  rewrite (rendered_className o1 b1 Hb1), (rendered_className o2 b2 Hb2).
  do 2 f_equal. apply (combinedClasses_ext o1 o2); try done. by rewrite Hc.
Qed.

Lemma classes_ignore_state_witness :
  ∃ e1 e2,
    Button.Button Examples.plain = Some e1 ∧ Button.Button Examples.loading = Some e2
    ∧ Button.attr e1 (js "className") = Button.attr e2 (js "className").
Proof.
  exact (classes_ignore_state Examples.plain Examples.loading
           eq_refl eq_refl eq_refl eq_refl eq_refl).
Defined.

(** ** The class-name helper *)

Lemma join_cons (sep : jsstring) (x : Utils.classValue) (l : list Utils.classValue) :
  l ≠ [] → Utils.join sep (x :: l) = Utils.elementText x ++ sep ++ Utils.join sep l.
Proof. by destruct l. Qed.

Lemma join_app (sep : jsstring) (l1 l2 : list Utils.classValue) :
  l1 ≠ [] → l2 ≠ [] →
  Utils.join sep (l1 ++ l2) = Utils.join sep l1 ++ sep ++ Utils.join sep l2.
Proof.
  intros H1 H2. induction l1 as [|x l1 IH]; [done|].
  destruct l1 as [|y l1].
  - simpl app. by rewrite join_cons.
  - change ((x :: y :: l1) ++ l2) with (x :: ((y :: l1) ++ l2)).
    rewrite join_cons by done. rewrite IH by done.
    rewrite (join_cons sep x (y :: l1)) by done.
    by rewrite <- !app_assoc.
Qed.

(** What [filter(Boolean)] keeps are strings that are not empty, so the
    join of a kept list that is not empty is not empty. *)
Lemma join_kept_nonempty (sep : jsstring) (l : list Utils.classValue) :
  Forall (λ c, Utils.Boolean c = true) l → l ≠ [] → Utils.join sep l ≠ [].
Proof.
  intros Hall Hne. destruct l as [|x l]; [done|].
  apply Forall_cons in Hall as [Hx _].
  destruct x as [[|c s]| | |]; try done.
  destruct l; simpl; discriminate.
Qed.

Lemma filter_Boolean_kept (l : list Utils.classValue) :
  Forall (λ c, Utils.Boolean c = true) (List.filter Utils.Boolean l).
Proof.
  apply Forall_forall. intros c Hc. apply list_elem_of_In in Hc.
  by apply List.filter_In in Hc as [_ ?].
Qed.

(** X6: the class tokens of [cn(...)] are the tokens of its string
    arguments, argument after argument; [undefined], [false], [null] and
    the empty string give none. *)
Theorem cn_tokens (classes : list Utils.classValue) :
  tokens (Utils.cn classes) = concat (map Utils.classTokens classes).
Proof.
  unfold Utils.cn. induction classes as [|x classes IH]; [done|].
  simpl List.filter. destruct (Utils.Boolean x) eqn:Hx.
  - destruct x as [s| | |]; try done. simpl concat. rewrite <- IH.
    destruct (List.filter Utils.Boolean classes) as [|y l] eqn:E.
    + simpl. by rewrite app_nil_r.
    + rewrite join_cons by done. apply tokens_app_space.
  - rewrite IH. destruct x as [[|c s]| | |]; try done.
Qed.

(** X7: an argument that is [undefined], [false], [null] or the empty
    string can be dropped from any place without changing the result, and
    the result is the empty string exactly when every argument is one of
    these. *)
Theorem cn_skips_falsy :
  (∀ xs x ys, Utils.Boolean x = false →
              Utils.cn (xs ++ x :: ys) = Utils.cn (xs ++ ys))
  ∧ (∀ classes, Utils.cn classes = []
                ↔ Forall (λ c, Utils.Boolean c = false) classes).
Proof.
  split.
  - intros xs x ys Hx. unfold Utils.cn.
    rewrite !List.filter_app. simpl. by rewrite Hx.
  - intros classes. unfold Utils.cn. split.
    + intros Hnil. apply Forall_forall. intros c Hc.
      destruct (Utils.Boolean c) eqn:Hb; [|done]. exfalso.
      assert (In c (List.filter Utils.Boolean classes)) as Hin.
      { apply List.filter_In. split; [by apply list_elem_of_In|done]. }
      apply (join_kept_nonempty (js " ") (List.filter Utils.Boolean classes)); try done.
      * apply filter_Boolean_kept.
      * intros E. by rewrite E in Hin.
    + intros Hall. induction Hall as [|x l Hx _ IH]; [done|].
      simpl. by rewrite Hx.
Qed.

Lemma cn_skips_falsy_witness :
  Utils.cn [Utils.ClassString (js "px-4"); Utils.ClassFalse; Utils.ClassString (js "py-2")]
  = Utils.cn [Utils.ClassString (js "px-4"); Utils.ClassString (js "py-2")]
  ∧ Utils.cn [Utils.ClassUndefined; Utils.ClassString []; Utils.ClassNull] = [].
Proof.
  destruct cn_skips_falsy as [Hdrop Hnil]. split.
  - exact (Hdrop [Utils.ClassString (js "px-4")] Utils.ClassFalse
             [Utils.ClassString (js "py-2")] eq_refl).
  - apply Hnil. repeat constructor.
Defined.

Lemma cn_two (a b : jsstring) :
  Utils.cn [Utils.ClassString a; Utils.ClassString b]
  = if nonempty a then (if nonempty b then a ++ js " " ++ b else a) else b.
Proof. by destruct a, b. Qed.

Lemma cn_kept_nonempty (classes : list Utils.classValue) :
  List.filter Utils.Boolean classes ≠ [] → nonempty (Utils.cn classes) = true.
Proof.
  intros Hne.
  pose proof (join_kept_nonempty (js " ") _ (filter_Boolean_kept classes) Hne) as Hjoin.
  unfold Utils.cn. by destruct (Utils.join _ _).
Qed.

(** X8: calls of [cn] nest: the result for two lists of arguments one
    after the other is the result for the two results. *)
Theorem cn_nested (xs ys : list Utils.classValue) :
  Utils.cn (xs ++ ys)
  = Utils.cn [Utils.ClassString (Utils.cn xs); Utils.ClassString (Utils.cn ys)].
Proof.
  rewrite cn_two.
  destruct (List.filter Utils.Boolean xs) as [|x kx] eqn:Ex;
    destruct (List.filter Utils.Boolean ys) as [|y ky] eqn:Ey.
  - unfold Utils.cn. by rewrite List.filter_app, Ex, Ey.
  - unfold Utils.cn. by rewrite List.filter_app, Ex, Ey.
  - rewrite (cn_kept_nonempty xs) by (by rewrite Ex).
    unfold Utils.cn. by rewrite List.filter_app, Ex, Ey, app_nil_r.
  - rewrite (cn_kept_nonempty xs) by (by rewrite Ex).
    rewrite (cn_kept_nonempty ys) by (by rewrite Ey).
    unfold Utils.cn. rewrite List.filter_app, Ex, Ey. by apply join_app.
Qed.

(** X9: the class string of the rendered button is what [cn] gives for
    the base fragment, the variant fragment, the size fragment and the
    caller's [className] without the white space at its end. *)
Theorem Button_classes_are_cn (o : Props) :
  Button.ButtonProps_ok o = true →
  ∃ b e vf zf,
    Button.destructure o = Some b ∧ Button.Button o = Some e
    ∧ Button.buttonVariants !! Button.variantKey (Button.variant b) = Some vf
    ∧ Button.buttonSizes !! Button.sizeKey (Button.size b) = Some zf
    ∧ Button.attr e (js "className")
      = Some (VString
                (Utils.cn [ Utils.ClassString Button.baseClasses;
                            Utils.ClassString vf;
                            Utils.ClassString zf;
                            Utils.ClassString (trimEnd (Button.className b)) ])).
Proof.
  intros Hok. destruct (Button_renders o Hok) as (b & Hb & He).
  destruct (buttonVariants_lookup (Button.variant b)) as [vf Hvf].
  destruct (buttonSizes_lookup (Button.size b)) as [zf Hzf].
  exists b, (Button.render b), vf, zf. repeat split; try done.
  rewrite (rendered_className o b Hb), (combinedClasses_shape b vf zf Hvf Hzf).
  do 2 f_equal.
  assert (vf ≠ []) as Hvne.
  { destruct (Button.variant b); vm_compute in Hvf; by injection Hvf as <-. }
  assert (zf ≠ []) as Hzne.
  { destruct (Button.size b); vm_compute in Hzf; by injection Hzf as <-. }
  change (trimEnd (js " " ++ Button.className b)) with
    (match trimEnd (Button.className b) with
     | [] => []
     | r => 32 :: r
     end).
  unfold Utils.cn.
  destruct vf as [|v0 vf]; [done|]. destruct zf as [|z0 zf]; [done|].
  destruct (trimEnd (Button.className b)) as [|c0 c];
    [by rewrite app_nil_r|reflexivity].
Qed.

Lemma Button_classes_are_cn_witness :
  Button.attr (default VNull (Button.Button Examples.customClass)) (js "className")
  = Some (VString
            (Utils.cn
               [ Utils.ClassString Button.baseClasses;
                 Utils.ClassString (js "bg-blue-600 text-white hover:bg-blue-700 focus:ring-blue-500");
                 Utils.ClassString (js "px-4 py-2 text-base");
                 Utils.ClassString (js "extra-token") ])).
Proof.
  destruct (Button_classes_are_cn Examples.customClass eq_refl)
    as (b & e & vf & zf & Hb & He & Hvf & Hzf & Hc).
  rewrite He. simpl. rewrite Hc.
  vm_compute in Hb. injection Hb as <-.
  vm_compute in Hvf. injection Hvf as <-.
  vm_compute in Hzf. injection Hzf as <-.
  vm_compute. reflexivity.
Defined.

(** ** The release configurations *)

(** X10: either configuration runs the npm step exactly when [NPM_TOKEN]
    is set to a string that is not empty; an empty token counts as none. *)
Theorem npm_step_iff_token (NPM_TOKEN : option jsstring) :
  (js "@semantic-release/npm" ∈ Release.plugins NPM_TOKEN ↔ envSet NPM_TOKEN = true)
  ∧ (js "@semantic-release/npm" ∈ ReleaseChangelog.plugins NPM_TOKEN
     ↔ envSet NPM_TOKEN = true)
  ∧ Release.plugins (Some []) = Release.plugins None
  ∧ ReleaseChangelog.plugins (Some []) = ReleaseChangelog.plugins None.
Proof.
  unfold Release.plugins, ReleaseChangelog.plugins.
  repeat split; try done; destruct (envSet NPM_TOKEN); try done; try (intros _; in_list);
    intros H; apply list_elem_of_In in H; simpl in H;
    repeat (destruct H as [H|H]; [vm_compute in H; discriminate H|]); destruct H.
Qed.

Lemma npm_step_iff_token_witness :
  js "@semantic-release/npm" ∈ Release.plugins (Some (js "npm_abc123")).
Proof.
  destruct (npm_step_iff_token (Some (js "npm_abc123"))) as ([_ Hin] & _).
  exact (Hin eq_refl).
Defined.

(** X11: in either configuration, with or without a token, the steps
    written in the file keep their order, the GitHub step comes last, and
    the npm step, when it runs, comes directly before the GitHub step. *)
Theorem release_steps_order (NPM_TOKEN : option jsstring) :
  List.filter (λ p, bool_decide (p ≠ js "@semantic-release/npm")) (Release.plugins NPM_TOKEN)
  = Release.initial
  ∧ List.filter (λ p, bool_decide (p ≠ js "@semantic-release/npm"))
      (ReleaseChangelog.plugins NPM_TOKEN)
    = ReleaseChangelog.initial
  ∧ last (Release.plugins NPM_TOKEN) = Some (js "@semantic-release/github")
  ∧ last (ReleaseChangelog.plugins NPM_TOKEN) = Some (js "@semantic-release/github")
  ∧ (envSet NPM_TOKEN = true →
     (∃ before, Release.plugins NPM_TOKEN
                = before ++ [js "@semantic-release/npm"; js "@semantic-release/github"])
     ∧ (∃ before, ReleaseChangelog.plugins NPM_TOKEN
                  = before ++ [js "@semantic-release/npm"; js "@semantic-release/github"])).
Proof.
  unfold Release.plugins, ReleaseChangelog.plugins.
  destruct (envSet NPM_TOKEN); repeat split; try (vm_compute; reflexivity); try done.
  - by exists [js "@semantic-release/commit-analyzer";
                js "@semantic-release/release-notes-generator"].
  - by exists [js "@semantic-release/commit-analyzer";
                js "@semantic-release/release-notes-generator";
                js "@semantic-release/changelog"].
Qed.

Lemma release_steps_order_witness :
  ∃ before, Release.plugins (Some (js "npm_abc123"))
            = before ++ [js "@semantic-release/npm"; js "@semantic-release/github"].
Proof.
  destruct (release_steps_order (Some (js "npm_abc123"))) as (_ & _ & _ & _ & Hnpm).
  exact (proj1 (Hnpm eq_refl)).
Defined.

(** X12: the configuration with the changelog runs the steps of the other
    one in the same order, with the changelog step put in after the release
    notes, whether or not the npm step runs. *)
Theorem changelog_configuration_extends (NPM_TOKEN : option jsstring) :
  ReleaseChangelog.plugins NPM_TOKEN
  = splice 2 0 [js "@semantic-release/changelog"] (Release.plugins NPM_TOKEN)
  ∧ fst (ReleaseChangelog.exports NPM_TOKEN) = fst (Release.exports NPM_TOKEN).
Proof.
  unfold ReleaseChangelog.plugins, Release.plugins.
  by destruct (envSet NPM_TOKEN).
Qed.

(** ** The Storybook hook *)

Section ViteFinalFacts.

Variable pathResolve : jsstring → jsstring → jsstring.
Variable dirname : jsstring.

Lemma added_lookup (k rel : jsstring) :
  (k, rel) ∈ Storybook.projectAliases →
  Storybook.added pathResolve dirname !! k = Some (VString (pathResolve dirname rel)).
Proof.
  intros Hin. apply list_elem_of_In in Hin. simpl in Hin.
  repeat (destruct Hin as [Hin|Hin]; [injection Hin as <- <-; reflexivity|]).
  destruct Hin.
Qed.

Lemma added_lookup_other (k : jsstring) :
  k ∉ map fst Storybook.projectAliases →
  Storybook.added pathResolve dirname !! k = None.
Proof. intros Hk. by apply not_elem_of_list_to_map_1. Qed.

(** X13: after the hook each of the five project names stands for its
    directory, whatever it stood for before; every other alias, every
    other option of [resolve] and every other field of the configuration
    is as it was, also when [resolve] or [alias] was missing. *)
Theorem viteFinal_changes_project_aliases_only (config : Storybook.ViteConfig) :
  (∀ k rel, (k, rel) ∈ Storybook.projectAliases →
            Storybook.aliasesOf (Storybook.viteFinal pathResolve dirname config) !! k
            = Some (VString (pathResolve dirname rel)))
  ∧ (∀ k, k ∉ map fst Storybook.projectAliases →
          Storybook.aliasesOf (Storybook.viteFinal pathResolve dirname config) !! k
          = Storybook.aliasesOf config !! k)
  ∧ Storybook.resolveOther
      <$> Storybook.resolve (Storybook.viteFinal pathResolve dirname config)
    = Some (default ∅ (Storybook.resolveOther <$> Storybook.resolve config))
  ∧ Storybook.configOther (Storybook.viteFinal pathResolve dirname config)
    = Storybook.configOther config.
Proof.
  assert (∀ k, Storybook.aliasesOf (Storybook.viteFinal pathResolve dirname config) !! k
               = (Storybook.added pathResolve dirname ∪ Storybook.aliasesOf config) !! k)
    as Hall.
  { intros k. unfold Storybook.aliasesOf, Storybook.viteFinal. simpl.
    by destruct (Storybook.resolve config) as [[[a|] other]|]. }
  repeat split.
  - intros k rel Hin. rewrite Hall. apply lookup_union_Some_l. by apply added_lookup.
  - intros k Hk. rewrite Hall. apply lookup_union_r. by apply added_lookup_other.
  - unfold Storybook.viteFinal. simpl. by destruct (Storybook.resolve config).
Qed.

(** X14: running the hook on its own result changes nothing. *)
Theorem viteFinal_idempotent (config : Storybook.ViteConfig) :
  Storybook.viteFinal pathResolve dirname (Storybook.viteFinal pathResolve dirname config)
  = Storybook.viteFinal pathResolve dirname config.
Proof.
  assert (∀ m : Props,
            Storybook.added pathResolve dirname ∪ (Storybook.added pathResolve dirname ∪ m)
            = Storybook.added pathResolve dirname ∪ m) as Hagain.
  { intros m. apply map_eq. intros k. rewrite !lookup_union.
    by destruct (Storybook.added pathResolve dirname !! k), (m !! k). }
  unfold Storybook.viteFinal. simpl. by rewrite Hagain.
Qed.

End ViteFinalFacts.

Lemma viteFinal_changes_project_aliases_only_witness :
  Storybook.aliasesOf
    (Storybook.viteFinal (λ dir rel, dir ++ js "/" ++ rel) (js "/app/.storybook")
       StorybookCases.withAlias) !! js "@"
  = Some (VString (js "/app/.storybook/../src"))
  ∧ Storybook.aliasesOf
      (Storybook.viteFinal (λ dir rel, dir ++ js "/" ++ rel) (js "/app/.storybook")
         StorybookCases.withAlias) !! js "~"
    = Some (VString (js "/app/lib")).
Proof.
  destruct (viteFinal_changes_project_aliases_only
              (λ dir rel, dir ++ js "/" ++ rel) (js "/app/.storybook")
              StorybookCases.withAlias) as (Hset & Hkept & _).
  split.
  - apply (Hset (js "@") (js "../src")). in_list.
  - rewrite Hkept; [reflexivity|].
    simpl. repeat (apply not_elem_of_cons; split; [key_neq|]). apply not_elem_of_nil.
Defined.
